(** * hello_app.hello_main: one GET request, one branch, a few prints

    A shallow embedding of [src/hello_app/hello_main.py].  The program
    talks to three things outside itself: the [requests] library (the
    network), [Response.json] (the JSON decoder) and [print] (standard
    output).  Each of them is an effect of a small Python monad: an
    exception layer over a state that records, in order, every effect
    the program performed. *)

From Stdlib Require Import String Ascii List ZArith Lia Bool DecimalString.
From ExtLib Require Import Structures.Monad Structures.MonadState
  Structures.MonadExc Data.Monads.StateMonad Data.Monads.EitherMonad.
Import ListNotations.
Import MonadNotation.
Local Open Scope monad_scope.
Local Open Scope string_scope.
Local Open Scope list_scope.
Local Open Scope Z_scope.

#[local] Set Warnings "-register-all".

(** ** Data *)

(** The keyword arguments of [requests.request] that a caller may set.
    [None] is Python's [None]: the argument was not given. *)
Record Request : Type := mkRequest
  { method : string
  ; url : string
  ; params : option (list (string * string))
  ; headers : option (list (string * string))
  ; data : option string
  ; timeout : option Z }.

(** What the program reads of a [requests.Response]. *)
Record Response : Type := mkResponse
  { status_code : Z
  ; content : string }.

(** Failures of the transport, below HTTP. *)
Inductive TransportFailure : Type :=
| DNSFailure
| ConnectionRefused
| TimedOut
| TLSError.

(** The exceptions that can cross [main]. *)
Inductive PyException : Type :=
| RequestException (f : TransportFailure)
| JSONDecodeError.

(** The network as one run of the program sees it: the answer to a
    request is a response, or the transport fails. *)
Definition Network : Type := Request -> TransportFailure + Response.

(** The part of the Python runtime the program relies on and does not
    define: the decoder behind [Response.json] and [str] on its results. *)
Class Runtime : Type :=
  { PyObject : Type
  ; json_loads : Response -> option PyObject
  ; py_str : PyObject -> string }.

(** ** Effects *)

Inductive Event : Type :=
| EvRequest (r : Request)
| EvJson (r : Response)
| EvPrint (s : string).

Definition Trace : Type := list Event.

(** State survives an exception: what was printed before a fault stays
    printed. *)
Definition Py : Type -> Type := eitherT PyException (state Trace).

Definition run {A : Type} (m : Py A) (t : Trace) : (PyException + A) * Trace :=
  runState (unEitherT m) t.

Definition emit (e : Event) : Py unit :=
  modify (fun t : Trace => t ++ [e]) ;; ret tt.

Definition is_print (e : Event) : option string :=
  match e with EvPrint s => Some s | _ => None end.

Definition is_request (e : Event) : option Request :=
  match e with EvRequest r => Some r | _ => None end.

Definition is_json (e : Event) : option Response :=
  match e with EvJson r => Some r | _ => None end.

Fixpoint select {A : Type} (f : Event -> option A) (t : Trace) : list A :=
  match t with
  | [] => []
  | e :: t' =>
      match f e with
      | Some a => a :: select f t'
      | None => select f t'
      end
  end.

(** The arguments of the [print] calls, the requests sent and the
    responses handed to the decoder, each in order. *)
Definition printed (t : Trace) : list string := select is_print t.
Definition requested (t : Trace) : list Request := select is_request t.
Definition decoded (t : Trace) : list Response := select is_json t.

Definition newline : string := String (ascii_of_nat 10) EmptyString.

(** [print(s)] writes [s] and a newline. *)
Definition stdout_text (t : Trace) : string :=
  String.concat "" (map (fun s => (s ++ newline)%string) (printed t)).

(** ** The program *)

Section Program.

Context {RT : Runtime}.
Variable net : Network.

(** [requests.get(url)]: [request("get", url, params=None)]. *)
Definition get_request (u : string) : Request :=
  {| method := "GET"; url := u; params := None;
     headers := None; data := None; timeout := None |}.

Definition requests_get (u : string) : Py Response :=
  emit (EvRequest (get_request u)) ;;
  match net (get_request u) with
  | inl f => raise (RequestException f)
  | inr r => ret r
  end.

(** [response.json()] *)
Definition json (r : Response) : Py PyObject :=
  emit (EvJson r) ;;
  match json_loads r with
  | Some v => ret v
  | None => raise JSONDecodeError
  end.

Definition print (s : string) : Py unit := emit (EvPrint s).

Definition api_url : string := "https://api.github.com".
Definition success_line : string := "Success! API data received:".
Definition failure_line : string := "Failed to retrieve data.".

Definition main : Py unit :=
  let url := api_url in
  response <- requests_get url ;;
  if status_code response =? 200 then
    print success_line ;;
    v <- json response ;;
    print (py_str v)
  else
    print failure_line.

(** The ways through [main]: the transport fails, the status is not
    200, the body decodes, or it does not. *)
Inductive Path : Type :=
| Unreachable (f : TransportFailure)
| Refused (resp : Response)
| Decoded (resp : Response) (v : PyObject)
| Undecodable (resp : Response).

Definition path : Path :=
  match net (get_request api_url) with
  | inl f => Unreachable f
  | inr resp =>
      if status_code resp =? 200 then
        match json_loads resp with
        | Some v => Decoded resp v
        | None => Undecodable resp
        end
      else Refused resp
  end.

Definition path_result (p : Path) : PyException + unit :=
  match p with
  | Unreachable f => inl (RequestException f)
  | Refused _ => inr tt
  | Decoded _ _ => inr tt
  | Undecodable _ => inl JSONDecodeError
  end.

Definition path_events (p : Path) : Trace :=
  EvRequest (get_request api_url) ::
  match p with
  | Unreachable _ => []
  | Refused _ => [EvPrint failure_line]
  | Decoded resp v => [EvPrint success_line; EvJson resp; EvPrint (py_str v)]
  | Undecodable resp => [EvPrint success_line; EvJson resp]
  end.

(** The module body under a given [__name__]: the [def] binds a name,
    the guard decides whether [main] is called. *)
Definition hello_main (name : string) : Py unit :=
  if String.eqb name "__main__" then main else ret tt.

End Program.

(** ** The process *)

Record Process : Type := mkProcess
  { exit_code : Z
  ; stdout : string
  ; events : Trace
  ; fault : option PyException }.

(** CPython's convention: 0 when the script runs to its end, 1 when an
    exception reaches the top level. *)
Definition exit_status {A : Type} (r : PyException + A) : Z :=
  match r with
  | inr _ => 0
  | inl _ => 1
  end.

Definition fault_of {A : Type} (r : PyException + A) : option PyException :=
  match r with
  | inr _ => None
  | inl e => Some e
  end.

(** [python hello_main.py], as started with the given command line and
    environment.  The interpreter runs the module body as [__main__],
    from a state in which nothing has happened yet. *)
Definition python {RT : Runtime} (argv : list string)
    (environ : list (string * string)) (net : Network) : Process :=
  let rt := run (hello_main net "__main__") [] in
  {| exit_code := exit_status (fst rt)
   ; stdout := stdout_text (snd rt)
   ; events := snd rt
   ; fault := fault_of (fst rt) |}.

(** ** A concrete runtime

    The statements below hold for every [Runtime].  To run the program
    on concrete responses one is needed: [Fixture] follows Python's
    [json] module on a fragment of JSON (the literals, integers, strings
    of printable ASCII without escapes, arrays and objects) and renders
    the result as [str] does.  A body outside the fragment is
    undecodable for the fixture. *)
Module Fixture.

Inductive value : Type :=
| PyNone
| PyBool (b : bool)
| PyInt (z : Z)
| PyStr (s : string)
| PyList (l : list value)
| PyDict (m : list (string * value)).

Definition dquote : ascii := "034"%char.
Definition squote : ascii := "039"%char.
Definition backslash : ascii := "092"%char.

Definition is_ws (c : ascii) : bool :=
  (c =? " ")%char || (c =? "009")%char || (c =? "010")%char || (c =? "013")%char.

Fixpoint skip_ws (s : list ascii) : list ascii :=
  match s with
  | c :: s' => if is_ws c then skip_ws s' else s
  | [] => []
  end.

Fixpoint strip_prefix (p s : list ascii) : option (list ascii) :=
  match p, s with
  | [], _ => Some s
  | a :: p', b :: s' => if (a =? b)%char then strip_prefix p' s' else None
  | _ :: _, [] => None
  end.

Definition is_digit (c : ascii) : bool :=
  ((48 <=? nat_of_ascii c) && (nat_of_ascii c <=? 57))%nat.

Definition digit (c : ascii) : Z := Z.of_nat (nat_of_ascii c) - 48.

(** Printable ASCII other than the double quote and the backslash. *)
Definition is_plain (c : ascii) : bool :=
  ((32 <=? nat_of_ascii c) && (nat_of_ascii c <=? 126))%nat
  && negb (c =? dquote)%char && negb (c =? backslash)%char.

(** After the opening quote: the characters up to the closing one. *)
Fixpoint scanstring (s : list ascii) : option (string * list ascii) :=
  match s with
  | [] => None
  | c :: s' =>
      if (c =? dquote)%char then Some (EmptyString, s')
      else if is_plain c then
        match scanstring s' with
        | Some (r, rest) => Some (String c r, rest)
        | None => None
        end
      else None
  end.

Fixpoint scan_digits (acc : Z) (s : list ascii) : Z * list ascii :=
  match s with
  | c :: s' => if is_digit c then scan_digits (10 * acc + digit c) s' else (acc, s)
  | [] => (acc, [])
  end.

(** [0] or a nonzero digit followed by digits. *)
Definition scan_natural (s : list ascii) : option (Z * list ascii) :=
  match s with
  | c :: s' =>
      if (c =? "0")%char then Some (0, s')
      else if is_digit c then Some (scan_digits (digit c) s')
      else None
  | [] => None
  end.

Definition scan_integer (s : list ascii) : option (Z * list ascii) :=
  match s with
  | c :: s' =>
      if (c =? "-")%char then
        match scan_natural s' with
        | Some (n, rest) => Some (- n, rest)
        | None => None
        end
      else scan_natural s
  | [] => None
  end.

(** A later member with the same key replaces the value and keeps the
    place of the first. *)
Fixpoint dict_set (k : string) (v : value) (m : list (string * value))
  : list (string * value) :=
  match m with
  | [] => [(k, v)]
  | (k', v') :: m' =>
      if String.eqb k k' then (k, v) :: m' else (k', v') :: dict_set k v m'
  end.

Fixpoint scan_once (fuel : nat) (s : list ascii) : option (value * list ascii) :=
  match fuel with
  | O => None
  | S fuel' =>
      match s with
      | [] => None
      | c :: s' =>
          if (c =? dquote)%char then
            match scanstring s' with
            | Some (x, rest) => Some (PyStr x, rest)
            | None => None
            end
          else if (c =? "{")%char then
            match skip_ws s' with
            | d :: rest =>
                if (d =? "}")%char then Some (PyDict [], rest)
                else scan_members fuel' [] (d :: rest)
            | [] => None
            end
          else if (c =? "[")%char then
            match skip_ws s' with
            | d :: rest =>
                if (d =? "]")%char then Some (PyList [], rest)
                else scan_elements fuel' [] (d :: rest)
            | [] => None
            end
          else
            match strip_prefix (list_ascii_of_string "null") s with
            | Some rest => Some (PyNone, rest)
            | None =>
            match strip_prefix (list_ascii_of_string "true") s with
            | Some rest => Some (PyBool true, rest)
            | None =>
            match strip_prefix (list_ascii_of_string "false") s with
            | Some rest => Some (PyBool false, rest)
            | None =>
            match scan_integer s with
            | Some (z, rest) => Some (PyInt z, rest)
            | None => None
            end end end end
      end
  end
with scan_elements (fuel : nat) (acc : list value) (s : list ascii)
  : option (value * list ascii) :=
  match fuel with
  | O => None
  | S fuel' =>
      match scan_once fuel' s with
      | Some (v, rest) =>
          match skip_ws rest with
          | d :: rest' =>
              if (d =? "]")%char then Some (PyList (acc ++ [v]), rest')
              else if (d =? ",")%char then
                scan_elements fuel' (acc ++ [v]) (skip_ws rest')
              else None
          | [] => None
          end
      | None => None
      end
  end
with scan_members (fuel : nat) (acc : list (string * value)) (s : list ascii)
  : option (value * list ascii) :=
  match fuel with
  | O => None
  | S fuel' =>
      match s with
      | q :: s' =>
          if (q =? dquote)%char then
            match scanstring s' with
            | Some (k, rest) =>
                match skip_ws rest with
                | colon :: rest' =>
                    if (colon =? ":")%char then
                      match scan_once fuel' (skip_ws rest') with
                      | Some (v, rest2) =>
                          match skip_ws rest2 with
                          | d :: rest3 =>
                              if (d =? "}")%char then
                                Some (PyDict (dict_set k v acc), rest3)
                              else if (d =? ",")%char then
                                scan_members fuel' (dict_set k v acc) (skip_ws rest3)
                              else None
                          | [] => None
                          end
                      | None => None
                      end
                    else None
                | [] => None
                end
            | None => None
            end
          else None
      | [] => None
      end
  end.

(** [json.loads]: one value, white space around it, nothing after. *)
Definition loads (body : string) : option value :=
  let s := list_ascii_of_string body in
  match scan_once (2 * List.length s + 2) (skip_ws s) with
  | Some (v, rest) =>
      match skip_ws rest with
      | [] => Some v
      | _ :: _ => None
      end
  | None => None
  end.

Fixpoint contains (c : ascii) (s : string) : bool :=
  match s with
  | EmptyString => false
  | String d s' => (c =? d)%char || contains c s'
  end.

(** [repr] of a [str] without escapes: single quotes, unless the
    string has one. *)
Definition repr_str (s : string) : string :=
  let q := if contains squote s then dquote else squote in
  (String q s ++ String q EmptyString)%string.

Definition decimal (z : Z) : string := NilZero.string_of_int (Z.to_int z).

Fixpoint repr (v : value) : string :=
  match v with
  | PyNone => "None"
  | PyBool true => "True"
  | PyBool false => "False"
  | PyInt z => decimal z
  | PyStr s => repr_str s
  | PyList l => ("[" ++ String.concat ", " (map repr l) ++ "]")%string
  | PyDict m =>
      ("{" ++ String.concat ", "
                (map (fun kv => (repr_str (fst kv) ++ ": " ++ repr (snd kv))%string) m)
           ++ "}")%string
  end.

(** [str]: a string is itself, anything else is its [repr]. *)
Definition str (v : value) : string :=
  match v with
  | PyStr s => s
  | _ => repr v
  end.

Definition runtime : Runtime :=
  {| PyObject := value
   ; json_loads := fun r => loads (content r)
   ; py_str := str |}.

(** An endpoint that answers every request to [u] with [r]; no other
    host resolves. *)
Definition mock_endpoint (u : string) (r : Response) : Network :=
  fun q => if String.eqb (url q) u then inr r else inl DNSFailure.

(** No route to any host. *)
Definition unreachable (f : TransportFailure) : Network :=
  fun _ => inl f.

Definition dq : string := String dquote EmptyString.

(** The body [{"ok": true}]. *)
Definition body_ok : string := ("{" ++ dq ++ "ok" ++ dq ++ ": true}")%string.

(** The responses of the test scenarios. *)
Definition resp_ok : Response := {| status_code := 200; content := body_ok |}.
Definition resp_not_json : Response := {| status_code := 200; content := "not-json" |}.
Definition resp_404 : Response := {| status_code := 404; content := "Not Found" |}.
Definition resp_201 : Response := {| status_code := 201; content := body_ok |}.

(** The GitHub endpoint, mocked. *)
Definition serve (r : Response) : Network := mock_endpoint api_url r.

(** A network on which every host gives the same answer. *)
Definition mirror (r : Response) : Network := fun _ => inr r.

(** Two bodies that decode to different objects with the same [str]:
    the literal [null] and the string [None] in quotes. *)
Definition resp_null : Response := {| status_code := 200; content := "null" |}.
Definition resp_none_str : Response :=
  {| status_code := 200; content := (dq ++ "None" ++ dq)%string |}.

(** A server error with a body of its own. *)
Definition resp_503 : Response :=
  {| status_code := 503; content := "Service Unavailable" |}.

End Fixture.

(** ** Running [main] *)

Lemma select_app {A : Type} (f : Event -> option A) (t u : Trace) :
  select f (t ++ u) = select f t ++ select f u.
Proof.
  induction t as [| e t IH]; simpl; [reflexivity |].
  destruct (f e); simpl; rewrite IH; reflexivity.
Qed.

Section Running.

Context {RT : Runtime}.
Variable net : Network.

Ltac step_main H :=
  unfold run, main, requests_get, json, print, emit;
  cbn -[get_request api_url]; rewrite H; cbn -[get_request api_url].

(** The four ways through [main], from any earlier history [t]. *)

Lemma run_main_transport (f : TransportFailure) (t : Trace) :
  net (get_request api_url) = inl f ->
  run (main net) t = (inl (RequestException f), t ++ [EvRequest (get_request api_url)]).
Proof. intros H. step_main H. reflexivity. Qed.

Lemma run_main_other (resp : Response) (t : Trace) :
  net (get_request api_url) = inr resp ->
  status_code resp <> 200 ->
  run (main net) t =
    (inr tt, t ++ [EvRequest (get_request api_url); EvPrint failure_line]).
Proof.
  intros H Hs. step_main H.
  destruct (Z.eqb_spec (status_code resp) 200) as [E | _]; [contradiction |].
  cbn -[get_request api_url]. rewrite <- app_assoc. reflexivity.
Qed.

Lemma run_main_decoded (resp : Response) (v : PyObject) (t : Trace) :
  net (get_request api_url) = inr resp ->
  status_code resp = 200 ->
  json_loads resp = Some v ->
  run (main net) t =
    (inr tt, t ++ [EvRequest (get_request api_url); EvPrint success_line;
                   EvJson resp; EvPrint (py_str v)]).
Proof.
  intros H Hs Hj. step_main H. rewrite Hs. cbn -[get_request api_url]. rewrite Hj. cbn -[get_request api_url].
  rewrite <- !app_assoc. reflexivity.
Qed.

Lemma run_main_undecodable (resp : Response) (t : Trace) :
  net (get_request api_url) = inr resp ->
  status_code resp = 200 ->
  json_loads resp = None ->
  run (main net) t =
    (inl JSONDecodeError, t ++ [EvRequest (get_request api_url); EvPrint success_line; EvJson resp]).
Proof.
  intros H Hs Hj. step_main H. rewrite Hs. cbn -[get_request api_url]. rewrite Hj. cbn -[get_request api_url].
  rewrite <- !app_assoc. reflexivity.
Qed.

(** Every run takes one of them. *)
Lemma run_main_path (t : Trace) :
  run (main net) t = (path_result (path net), t ++ path_events (path net)).
Proof.
  unfold path.
  destruct (net (get_request api_url)) as [f | resp] eqn:H.
  - apply (run_main_transport f), H.
  - destruct (Z.eqb_spec (status_code resp) 200) as [Hs | Hs].
    + destruct (json_loads resp) as [v |] eqn:Hj.
      * apply (run_main_decoded resp v); assumption.
      * apply (run_main_undecodable resp); assumption.
    + apply (run_main_other resp); assumption.
Qed.

(** What [main] prints is appended to what was printed before. *)
Lemma printed_main_frame (t : Trace) :
  printed (snd (run (main net) t)) =
    printed t ++ printed (snd (run (main net) [])).
Proof. rewrite !run_main_path. cbn [snd]. apply select_app. Qed.

Lemma run_hello_main_script (t : Trace) :
  run (hello_main net "__main__") t = run (main net) t.
Proof. reflexivity. Qed.

Lemma run_hello_main_imported (name : string) (t : Trace) :
  name <> "__main__" ->
  run (hello_main net name) t = (inr tt, t).
Proof.
  intros H. unfold hello_main.
  destruct (String.eqb_spec name "__main__") as [E | _]; [contradiction |].
  reflexivity.
Qed.

End Running.

(** ** The process, by path *)

Lemma python_path `{RT : Runtime} (argv : list string)
    (environ : list (string * string)) (net : Network) :
  python argv environ net =
    {| exit_code := exit_status (path_result (path net))
     ; stdout := stdout_text (path_events (path net))
     ; events := path_events (path net)
     ; fault := fault_of (path_result (path net)) |}.
Proof.
  unfold python. rewrite run_hello_main_script, run_main_path. reflexivity.
Qed.

Lemma path_transport `{RT : Runtime} (net : Network) f :
  net (get_request api_url) = inl f -> path net = Unreachable f.
Proof. intros H. unfold path. rewrite H. reflexivity. Qed.

Lemma path_other `{RT : Runtime} (net : Network) resp :
  net (get_request api_url) = inr resp ->
  status_code resp <> 200 ->
  path net = Refused resp.
Proof.
  intros H Hs. unfold path. rewrite H.
  destruct (Z.eqb_spec (status_code resp) 200); [contradiction | reflexivity].
Qed.

Lemma path_decoded `{RT : Runtime} (net : Network) resp v :
  net (get_request api_url) = inr resp ->
  status_code resp = 200 ->
  json_loads resp = Some v ->
  path net = Decoded resp v.
Proof. intros H Hs Hj. unfold path. rewrite H, Hs, Hj. reflexivity. Qed.

Lemma path_undecodable `{RT : Runtime} (net : Network) resp :
  net (get_request api_url) = inr resp ->
  status_code resp = 200 ->
  json_loads resp = None ->
  path net = Undecodable resp.
Proof. intros H Hs Hj. unfold path. rewrite H, Hs, Hj. reflexivity. Qed.

(** ** The behaviour of [main] *)

Section Claims.

Context {RT : Runtime}.

(** C1: when the response has status 200 and its body decodes as
    JSON, [main] ends normally and has printed the success line and
    then [str] of the decoded body, in that order, and nothing else. *)
Theorem main_success_prints_line_then_json
    (net : Network) (resp : Response) (v : PyObject) :
  net (get_request api_url) = inr resp ->
  status_code resp = 200 ->
  json_loads resp = Some v ->
  fst (run (main net) []) = inr tt /\
  printed (snd (run (main net) [])) = ["Success! API data received:"; py_str v] /\
  stdout_text (snd (run (main net) [])) =
    ("Success! API data received:" ++ newline ++ py_str v ++ newline)%string.
Proof.
  intros H Hs Hj. rewrite (run_main_decoded net resp v [] H Hs Hj).
  repeat split.
Qed.

(** C2: when the status of the response is not 200, [main] prints the
    one line "Failed to retrieve data." and nothing else, and the body
    is never handed to the JSON decoder. *)
Theorem main_failure_prints_one_line (net : Network) (resp : Response) :
  net (get_request api_url) = inr resp ->
  status_code resp <> 200 ->
  fst (run (main net) []) = inr tt /\
  printed (snd (run (main net) [])) = ["Failed to retrieve data."] /\
  stdout_text (snd (run (main net) [])) = ("Failed to retrieve data." ++ newline)%string /\
  decoded (snd (run (main net) [])) = [].
Proof.
  intros H Hs. rewrite (run_main_other net resp [] H Hs).
  repeat split.
Qed.

(** C3, as amended: when the status is 200 and the body does not
    decode as JSON, [main] ends with the decoder's fault, uncaught; by
    then the success line, and only it, has been printed. *)
Theorem main_bad_json_faults_after_success_line (net : Network) (resp : Response) :
  net (get_request api_url) = inr resp ->
  status_code resp = 200 ->
  json_loads resp = None ->
  fst (run (main net) []) = inl JSONDecodeError /\
  printed (snd (run (main net) [])) = ["Success! API data received:"].
Proof.
  intros H Hs Hj. rewrite (run_main_undecodable net resp [] H Hs Hj).
  split; reflexivity.
Qed.

(** C4: whatever the failure of the transport, [main] does not catch
    it: the fault leaves [main], the process ends on it with a nonzero
    exit code, and nothing was printed. *)
Theorem main_transport_fault_propagates
    (argv : list string) (environ : list (string * string))
    (net : Network) (f : TransportFailure) :
  net (get_request api_url) = inl f ->
  fst (run (main net) []) = inl (RequestException f) /\
  printed (snd (run (main net) [])) = [] /\
  fault (python argv environ net) = Some (RequestException f) /\
  exit_code (python argv environ net) = 1 /\
  stdout (python argv environ net) = "".
Proof.
  intros H. rewrite python_path, (run_main_transport net f [] H).
  rewrite (path_transport net f H). repeat split.
Qed.

(** C5: every run issues exactly one request: a GET to
    https://api.github.com with no query parameters, no headers, no
    body and no timeout; and the run is the same whatever the command
    line and the environment. *)
Theorem one_get_to_fixed_url
    (argv argv' : list string) (environ environ' : list (string * string))
    (net : Network) :
  requested (events (python argv environ net)) =
    [ {| method := "GET"; url := "https://api.github.com"; params := None;
         headers := None; data := None; timeout := None |} ] /\
  python argv environ net = python argv' environ' net.
Proof.
  split; [| reflexivity].
  rewrite python_path. cbn [events].
  destruct (path net); reflexivity.
Qed.

(** C6: the exit code is 0 on both branches of [main] that end
    normally, the failure branch included, and it is nonzero exactly
    when the transport failed or the body of a 200 response did not
    decode. *)
Theorem exit_code_zero_unless_fault
    (argv : list string) (environ : list (string * string)) (net : Network) :
  let p := python argv environ net in
  (forall resp, net (get_request api_url) = inr resp ->
     status_code resp <> 200 ->
     exit_code p = 0 /\ fault p = None /\
     printed (events p) = ["Failed to retrieve data."]) /\
  (forall resp v, net (get_request api_url) = inr resp ->
     status_code resp = 200 -> json_loads resp = Some v ->
     exit_code p = 0 /\ fault p = None) /\
  (exit_code p <> 0 <->
     (exists f, net (get_request api_url) = inl f) \/
     (exists resp, net (get_request api_url) = inr resp /\
        status_code resp = 200 /\ json_loads resp = None)).
Proof.
  cbv zeta. rewrite python_path. cbn [exit_code fault events].
  split; [| split].
  - intros resp H Hs. rewrite (path_other net resp H Hs). repeat split.
  - intros resp v H Hs Hj. rewrite (path_decoded net resp v H Hs Hj). split; reflexivity.
  - unfold path.
    destruct (net (get_request api_url)) as [f | resp].
    + cbn. split; [intros _; left; exists f; reflexivity | intros _; discriminate].
    + destruct (Z.eqb_spec (status_code resp) 200) as [Hs | Hs].
      * destruct (json_loads resp) as [v |] eqn:Hj; cbn.
        -- split; [intros E; contradiction E; reflexivity |].
           intros [[f E] | [r [E [_ Hn]]]]; [discriminate |].
           injection E as <-. congruence.
        -- split; [| intros _; discriminate].
           intros _. right. exists resp. auto.
      * cbn. split; [intros E; contradiction E; reflexivity |].
        intros [[f E] | [r [E [Hr _]]]]; [discriminate |].
        injection E as <-. contradiction.
Qed.

(** C7: what a run prints is a function of the status code of the
    response it receives and of what the decoder makes of it: the
    failure line when the status is not 200; the success line when it is,
    followed by [str] of the decoded body when the body decodes.  It is
    that whatever the command line, the environment, the rest of the
    network and the history before the run, and the run adds to the
    history without reading it.  Hence two runs that receive responses
    with the same status code and the same body print the same, have the
    same standard output, exit code and events, and carry nothing from
    one to the other. *)
Theorem main_deterministic_in_response
    (argv1 argv2 : list string) (environ1 environ2 : list (string * string))
    (net1 net2 : Network) (r1 r2 : Response) (t1 t2 : Trace) :
  let out :=
    if status_code r1 =? 200 then
      "Success! API data received:" ::
      match json_loads r1 with
      | Some v => [py_str v]
      | None => []
      end
    else ["Failed to retrieve data."] in
  net1 (get_request api_url) = inr r1 ->
  net2 (get_request api_url) = inr r2 ->
  status_code r1 = status_code r2 ->
  content r1 = content r2 ->
  printed (events (python argv1 environ1 net1)) = out /\
  printed (events (python argv2 environ2 net2)) = out /\
  printed (snd (run (main net1) t1)) = printed t1 ++ out /\
  printed (snd (run (main net2) t2)) = printed t2 ++ out /\
  python argv1 environ1 net1 = python argv2 environ2 net2 /\
  stdout (python argv1 environ1 net1) = stdout (python argv2 environ2 net2) /\
  fst (run (main net1) t1) = fst (run (main net2) t2) /\
  exists d, snd (run (main net1) t1) = t1 ++ d /\
            snd (run (main net2) t2) = t2 ++ d.
Proof.
  intros out H1 H2 Hs Hc.
  assert (r1 = r2) as <- by (destruct r1, r2; cbn in *; congruence).
  assert (path net1 = path net2) as E by (unfold path; rewrite H1, H2; reflexivity).
  assert (printed (path_events (path net2)) = out) as Hout.
  { subst out. unfold path. rewrite H2.
    destruct (status_code r1 =? 200); [| reflexivity].
    destruct (json_loads r1); reflexivity. }
  rewrite !python_path, !run_main_path, E. cbn [fst snd events].
  unfold printed in *. rewrite !select_app, Hout.
  repeat split. exists (path_events (path net2)). split; reflexivity.
Qed.

(** C8: when the status is 200 the success line is printed before the
    body is handed to the decoder; so a fault of the decoder comes
    after the success line is already on standard output. *)
Theorem success_line_precedes_decoding (net : Network) (resp : Response) :
  net (get_request api_url) = inr resp ->
  status_code resp = 200 ->
  exists rest,
    snd (run (main net) []) =
      [EvRequest (get_request api_url); EvPrint "Success! API data received:";
       EvJson resp] ++ rest /\
    (json_loads resp = None ->
     rest = [] /\
     fst (run (main net) []) = inl JSONDecodeError /\
     stdout_text (snd (run (main net) [])) =
       ("Success! API data received:" ++ newline)%string).
Proof.
  intros H Hs. destruct (json_loads resp) as [v |] eqn:Hj.
  - rewrite (run_main_decoded net resp v [] H Hs Hj).
    exists [EvPrint (py_str v)]. split; [reflexivity | discriminate].
  - rewrite (run_main_undecodable net resp [] H Hs Hj).
    exists []. split; [reflexivity |]. intros _. repeat split.
Qed.

(** C9: the test is equality with 200: the success line is printed
    exactly when the status is 200, and for every other status from
    200 to 299 [main] prints the failure line and nothing else. *)
Theorem only_200_is_success (net : Network) (resp : Response) :
  net (get_request api_url) = inr resp ->
  (In "Success! API data received:" (printed (snd (run (main net) []))) <->
   status_code resp = 200) /\
  (200 <= status_code resp <= 299 -> status_code resp <> 200 ->
   fst (run (main net) []) = inr tt /\
   printed (snd (run (main net) [])) = ["Failed to retrieve data."]).
Proof.
  intros H. split.
  - destruct (Z.eq_dec (status_code resp) 200) as [Hs | Hs].
    + split; [intros _; exact Hs | intros _].
      destruct (json_loads resp) as [v |] eqn:Hj.
      * rewrite (run_main_decoded net resp v [] H Hs Hj). left. reflexivity.
      * rewrite (run_main_undecodable net resp [] H Hs Hj). left. reflexivity.
    + rewrite (run_main_other net resp [] H Hs). cbn.
      split; [intros [E | []]; discriminate | intros E; contradiction].
  - intros _ Hs. rewrite (run_main_other net resp [] H Hs). split; reflexivity.
Qed.

(** C10: under any [__name__] other than "__main__" the module body
    has no effect: no request, no print; [main] runs only under
    "__main__", and then the module body is [main]. *)
Theorem import_has_no_effect (net : Network) (name : string) (t : Trace) :
  (name <> "__main__" -> run (hello_main net name) t = (inr tt, t)) /\
  (snd (run (hello_main net name) t) <> t -> name = "__main__") /\
  run (hello_main net "__main__") t = run (main net) t /\
  snd (run (main net) t) <> t.
Proof.
  split; [apply run_hello_main_imported |]. split; [| split].
  - intros Hn. destruct (String.eqb_spec name "__main__") as [E | E]; [exact E |].
    rewrite (run_hello_main_imported net name t E) in Hn. contradiction Hn. reflexivity.
  - reflexivity.
  - rewrite run_main_path. cbn [snd]. intros E.
    apply (f_equal (@List.length Event)) in E. rewrite length_app in E.
    unfold path_events in E. cbn [List.length] in E. lia.
Qed.

End Claims.

(** ** The statements at the test scenarios *)

Lemma main_success_prints_line_then_json_witness :
  Fixture.serve Fixture.resp_ok (get_request api_url) = inr Fixture.resp_ok /\
  status_code Fixture.resp_ok = 200 /\
  @json_loads Fixture.runtime Fixture.resp_ok
    = Some (Fixture.PyDict [("ok", Fixture.PyBool true)]) /\
  printed (snd (run (@main Fixture.runtime (Fixture.serve Fixture.resp_ok)) []))
    = ["Success! API data received:"; "{'ok': True}"].
Proof.
  do 3 (split; [reflexivity |]).
  exact (proj1 (proj2 (@main_success_prints_line_then_json Fixture.runtime
           (Fixture.serve Fixture.resp_ok) Fixture.resp_ok
           (Fixture.PyDict [("ok", Fixture.PyBool true)])
           eq_refl eq_refl eq_refl))).
Defined.

Lemma main_failure_prints_one_line_witness :
  Fixture.serve Fixture.resp_404 (get_request api_url) = inr Fixture.resp_404 /\
  status_code Fixture.resp_404 <> 200 /\
  printed (snd (run (@main Fixture.runtime (Fixture.serve Fixture.resp_404)) []))
    = ["Failed to retrieve data."] /\
  decoded (snd (run (@main Fixture.runtime (Fixture.serve Fixture.resp_404)) [])) = [].
Proof.
  assert (status_code Fixture.resp_404 <> 200) as Hs by (cbn; lia).
  split; [reflexivity |]. split; [exact Hs |].
  pose proof (@main_failure_prints_one_line Fixture.runtime
                (Fixture.serve Fixture.resp_404) Fixture.resp_404 eq_refl Hs) as H.
  split; [exact (proj1 (proj2 H)) | exact (proj2 (proj2 (proj2 H)))].
Defined.

(** C3, as the claim states it, fails at the response with status 200
    and body [not-json]: the decoder raises, and the success line is on
    standard output. *)
Lemma main_bad_json_success_line_is_printed :
  Fixture.serve Fixture.resp_not_json (get_request api_url) = inr Fixture.resp_not_json /\
  status_code Fixture.resp_not_json = 200 /\
  @json_loads Fixture.runtime Fixture.resp_not_json = None /\
  ~ (fst (run (@main Fixture.runtime (Fixture.serve Fixture.resp_not_json)) [])
       = inl JSONDecodeError /\
     ~ In "Success! API data received:"
          (printed (snd (run (@main Fixture.runtime
                                (Fixture.serve Fixture.resp_not_json)) [])))).
Proof.
  do 3 (split; [reflexivity |]).
  intros [_ H]. apply H. left. reflexivity.
Qed.

Lemma main_bad_json_faults_after_success_line_witness :
  Fixture.serve Fixture.resp_not_json (get_request api_url) = inr Fixture.resp_not_json /\
  status_code Fixture.resp_not_json = 200 /\
  @json_loads Fixture.runtime Fixture.resp_not_json = None /\
  fst (run (@main Fixture.runtime (Fixture.serve Fixture.resp_not_json)) [])
    = inl JSONDecodeError /\
  printed (snd (run (@main Fixture.runtime (Fixture.serve Fixture.resp_not_json)) []))
    = ["Success! API data received:"].
Proof.
  do 3 (split; [reflexivity |]).
  exact (@main_bad_json_faults_after_success_line Fixture.runtime
           (Fixture.serve Fixture.resp_not_json) Fixture.resp_not_json
           eq_refl eq_refl eq_refl).
Defined.

Lemma main_transport_fault_propagates_witness :
  Fixture.unreachable ConnectionRefused (get_request api_url) = inl ConnectionRefused /\
  fault (@python Fixture.runtime ["hello_main.py"] []
           (Fixture.unreachable ConnectionRefused))
    = Some (RequestException ConnectionRefused) /\
  stdout (@python Fixture.runtime ["hello_main.py"] []
            (Fixture.unreachable ConnectionRefused)) = "".
Proof.
  split; [reflexivity |].
  pose proof (@main_transport_fault_propagates Fixture.runtime ["hello_main.py"] []
                (Fixture.unreachable ConnectionRefused) ConnectionRefused eq_refl) as H.
  split; [exact (proj1 (proj2 (proj2 H))) | exact (proj2 (proj2 (proj2 (proj2 H))))].
Defined.

Lemma exit_code_zero_unless_fault_witness :
  Fixture.serve Fixture.resp_404 (get_request api_url) = inr Fixture.resp_404 /\
  status_code Fixture.resp_404 <> 200 /\
  exit_code (@python Fixture.runtime ["hello_main.py"] []
               (Fixture.serve Fixture.resp_404)) = 0.
Proof.
  assert (status_code Fixture.resp_404 <> 200) as Hs by (cbn; lia).
  split; [reflexivity |]. split; [exact Hs |].
  exact (proj1 (proj1 (@exit_code_zero_unless_fault Fixture.runtime ["hello_main.py"] []
                         (Fixture.serve Fixture.resp_404))
                  Fixture.resp_404 eq_refl Hs)).
Defined.

Lemma main_deterministic_in_response_witness :
  Fixture.serve Fixture.resp_ok (get_request api_url) = inr Fixture.resp_ok /\
  Fixture.mirror Fixture.resp_ok (get_request api_url) = inr Fixture.resp_ok /\
  printed (events (@python Fixture.runtime ["hello_main.py"; "again"]
                     [("HOME", "/root")] (Fixture.mirror Fixture.resp_ok)))
    = ["Success! API data received:"; "{'ok': True}"] /\
  stdout (@python Fixture.runtime ["hello_main.py"] [] (Fixture.serve Fixture.resp_ok))
    = stdout (@python Fixture.runtime ["hello_main.py"; "again"] [("HOME", "/root")]
                (Fixture.mirror Fixture.resp_ok)).
Proof.
  split; [reflexivity |]. split; [reflexivity |].
  pose proof (@main_deterministic_in_response Fixture.runtime
                ["hello_main.py"] ["hello_main.py"; "again"] [] [("HOME", "/root")]
                (Fixture.serve Fixture.resp_ok) (Fixture.mirror Fixture.resp_ok)
                Fixture.resp_ok Fixture.resp_ok [] []
                eq_refl eq_refl eq_refl eq_refl) as H.
  split.
  - exact (proj1 (proj2 H)).
  - exact (proj1 (proj2 (proj2 (proj2 (proj2 (proj2 H)))))).
Defined.

Lemma success_line_precedes_decoding_witness :
  Fixture.serve Fixture.resp_not_json (get_request api_url) = inr Fixture.resp_not_json /\
  status_code Fixture.resp_not_json = 200 /\
  exists rest,
    snd (run (@main Fixture.runtime (Fixture.serve Fixture.resp_not_json)) []) =
      [EvRequest (get_request api_url); EvPrint "Success! API data received:";
       EvJson Fixture.resp_not_json] ++ rest.
Proof.
  split; [reflexivity |]. split; [reflexivity |].
  destruct (@success_line_precedes_decoding Fixture.runtime
              (Fixture.serve Fixture.resp_not_json) Fixture.resp_not_json
              eq_refl eq_refl) as [rest [H _]].
  exists rest. exact H.
Defined.

Lemma only_200_is_success_witness :
  Fixture.serve Fixture.resp_201 (get_request api_url) = inr Fixture.resp_201 /\
  200 <= status_code Fixture.resp_201 <= 299 /\
  status_code Fixture.resp_201 <> 200 /\
  printed (snd (run (@main Fixture.runtime (Fixture.serve Fixture.resp_201)) []))
    = ["Failed to retrieve data."].
Proof.
  assert (200 <= status_code Fixture.resp_201 <= 299) as Hr by (cbn; lia).
  assert (status_code Fixture.resp_201 <> 200) as Hs by (cbn; lia).
  split; [reflexivity |]. split; [exact Hr |]. split; [exact Hs |].
  exact (proj2 (proj2 (@only_200_is_success Fixture.runtime
                         (Fixture.serve Fixture.resp_201) Fixture.resp_201 eq_refl)
                  Hr Hs)).
Defined.

Lemma import_has_no_effect_witness :
  "hello_app.hello_main" <> "__main__" /\
  run (@hello_main Fixture.runtime (Fixture.serve Fixture.resp_ok)
         "hello_app.hello_main") [] = (inr tt, []).
Proof.
  assert ("hello_app.hello_main" <> "__main__") as Hn by discriminate.
  split; [exact Hn |].
  exact (proj1 (@import_has_no_effect Fixture.runtime (Fixture.serve Fixture.resp_ok)
                  "hello_app.hello_main" []) Hn).
Defined.

(** ** What an observer of the process can tell

    Further properties of [main], read off its control flow: what
    standard output, the exit code and the fault say about the path
    taken, and what they hide. *)

Section Observations.

Context {RT : Runtime}.

Ltac by_path net :=
  rewrite ?python_path; unfold path;
  destruct (net (get_request api_url)) as [f | resp] eqn:Hnet;
  [| destruct (Z.eqb_spec (status_code resp) 200) as [Hs | Hs];
     [destruct (json_loads resp) as [v |] eqn:Hj |]].

(** X1: standard output is empty exactly when the transport failed: any
    output at all means that a response arrived. *)
Theorem silent_iff_transport_failure
    (argv : list string) (environ : list (string * string)) (net : Network) :
  stdout (python argv environ net) = "" <->
  exists f, net (get_request api_url) = inl f.
Proof.
  by_path net; cbn.
  - split; [intros _; exists f; reflexivity | reflexivity].
  - split; [discriminate | intros [f E]; discriminate].
  - split; [discriminate | intros [f E]; discriminate].
  - split; [discriminate | intros [f E]; discriminate].
Qed.

(** X2: responses whose status is not 200 cannot be told apart: whatever
    their status codes and bodies, the two runs have the same standard
    output, exit code, fault and events. *)
Theorem non_200_responses_indistinguishable
    (argv1 argv2 : list string) (environ1 environ2 : list (string * string))
    (net1 net2 : Network) (r1 r2 : Response) :
  net1 (get_request api_url) = inr r1 ->
  net2 (get_request api_url) = inr r2 ->
  status_code r1 <> 200 ->
  status_code r2 <> 200 ->
  python argv1 environ1 net1 = python argv2 environ2 net2.
Proof.
  intros H1 H2 Hs1 Hs2.
  rewrite !python_path, (path_other net1 r1 H1 Hs1), (path_other net2 r2 H2 Hs2).
  reflexivity.
Qed.

(** X3: the fault of the process tells what failed.  It is the
    transport's failure exactly when the request got no response; it is
    the decoder's exactly when a response with status 200 had a body that
    does not decode, and then standard output holds the success line and
    nothing more. *)
Theorem fault_tells_what_failed
    (argv : list string) (environ : list (string * string)) (net : Network) :
  (forall f, fault (python argv environ net) = Some (RequestException f) <->
             net (get_request api_url) = inl f) /\
  (fault (python argv environ net) = Some JSONDecodeError <->
     exists resp, net (get_request api_url) = inr resp /\
                  status_code resp = 200 /\ json_loads resp = None) /\
  (fault (python argv environ net) = Some JSONDecodeError ->
     stdout (python argv environ net) =
       ("Success! API data received:" ++ newline)%string).
Proof.
  by_path net; cbn; (split; [| split]).
  - intros g. split; congruence.
  - split; [discriminate | intros [r [E _]]; discriminate].
  - discriminate.
  - intros g. split; discriminate.
  - split; [discriminate | intros [r [E [_ Hn]]]].
    injection E as <-. congruence.
  - discriminate.
  - intros g. split; discriminate.
  - split; [intros _; exists resp; auto | reflexivity].
  - reflexivity.
  - intros g. split; discriminate.
  - split; [discriminate | intros [r [E [Hr _]]]].
    injection E as <-. contradiction.
  - discriminate.
Qed.

(** X4: the decoder is called at most once, and the responses it is
    given are exactly: the response the request returned, when its status
    is 200. *)
Theorem decoder_sees_only_the_200_response
    (argv : list string) (environ : list (string * string)) (net : Network) :
  (List.length (decoded (events (python argv environ net))) <= 1)%nat /\
  (forall r, In r (decoded (events (python argv environ net))) <->
             net (get_request api_url) = inr r /\ status_code r = 200).
Proof.
  by_path net; cbn; (split; [lia |]); intros r.
  - split; [intros [] | intros [E _]; discriminate].
  - split; [intros [<- | []]; auto | intros [E _]; left; congruence].
  - split; [intros [<- | []]; auto | intros [E _]; left; congruence].
  - split; [intros [] | intros [E Hr]].
    injection E as <-. contradiction.
Qed.

(** X5: in every run the request is the first effect: nothing is
    printed or decoded before it; after it come at most three effects,
    none of them a request and at most two of them prints. *)
Theorem request_comes_first
    (argv : list string) (environ : list (string * string)) (net : Network) :
  exists rest,
    events (python argv environ net) = EvRequest (get_request api_url) :: rest /\
    requested rest = [] /\
    (List.length (printed rest) <= 2)%nat /\
    (List.length rest <= 3)%nat.
Proof.
  rewrite python_path. cbn [events]. unfold path_events.
  eexists. split; [reflexivity |].
  destruct (path net); cbn; repeat split; lia.
Qed.

(** X6: with status 200, standard output depends on the body only
    through [str] of what it decodes to: two bodies whose decoded
    objects have the same [str] give the same output and exit code. *)
Theorem output_depends_on_str_of_decoded_body
    (argv1 argv2 : list string) (environ1 environ2 : list (string * string))
    (net1 net2 : Network) (r1 r2 : Response) (v1 v2 : PyObject) :
  net1 (get_request api_url) = inr r1 ->
  net2 (get_request api_url) = inr r2 ->
  status_code r1 = 200 ->
  status_code r2 = 200 ->
  json_loads r1 = Some v1 ->
  json_loads r2 = Some v2 ->
  py_str v1 = py_str v2 ->
  stdout (python argv1 environ1 net1) = stdout (python argv2 environ2 net2) /\
  exit_code (python argv1 environ1 net1) = exit_code (python argv2 environ2 net2) /\
  printed (events (python argv1 environ1 net1)) =
    printed (events (python argv2 environ2 net2)).
Proof.
  intros H1 H2 Hs1 Hs2 Hj1 Hj2 E.
  rewrite !python_path, (path_decoded net1 r1 v1 H1 Hs1 Hj1),
    (path_decoded net2 r2 v2 H2 Hs2 Hj2).
  cbn [stdout exit_code events]. unfold stdout_text, printed. cbn.
  rewrite E. repeat split.
Qed.

End Observations.

Lemma silent_iff_transport_failure_witness :
  (exists f, Fixture.unreachable TLSError (get_request api_url) = inl f) /\
  stdout (@python Fixture.runtime ["hello_main.py"] [] (Fixture.unreachable TLSError)) = "".
Proof.
  assert (exists f, Fixture.unreachable TLSError (get_request api_url) = inl f) as H
    by (exists TLSError; reflexivity).
  split; [exact H |].
  exact (proj2 (@silent_iff_transport_failure Fixture.runtime ["hello_main.py"] []
                  (Fixture.unreachable TLSError)) H).
Defined.

Lemma non_200_responses_indistinguishable_witness :
  Fixture.serve Fixture.resp_404 (get_request api_url) = inr Fixture.resp_404 /\
  Fixture.serve Fixture.resp_503 (get_request api_url) = inr Fixture.resp_503 /\
  status_code Fixture.resp_404 <> 200 /\
  status_code Fixture.resp_503 <> 200 /\
  @python Fixture.runtime ["hello_main.py"] [] (Fixture.serve Fixture.resp_404)
    = @python Fixture.runtime ["hello_main.py"] [] (Fixture.serve Fixture.resp_503).
Proof.
  assert (status_code Fixture.resp_404 <> 200) as H4 by (cbn; lia).
  assert (status_code Fixture.resp_503 <> 200) as H5 by (cbn; lia).
  do 2 (split; [reflexivity |]). split; [exact H4 |]. split; [exact H5 |].
  exact (@non_200_responses_indistinguishable Fixture.runtime
           ["hello_main.py"] ["hello_main.py"] [] []
           (Fixture.serve Fixture.resp_404) (Fixture.serve Fixture.resp_503)
           Fixture.resp_404 Fixture.resp_503 eq_refl eq_refl H4 H5).
Defined.

Lemma fault_tells_what_failed_witness :
  fault (@python Fixture.runtime ["hello_main.py"] []
           (Fixture.serve Fixture.resp_not_json)) = Some JSONDecodeError /\
  stdout (@python Fixture.runtime ["hello_main.py"] []
            (Fixture.serve Fixture.resp_not_json))
    = ("Success! API data received:" ++ newline)%string.
Proof.
  assert (fault (@python Fixture.runtime ["hello_main.py"] []
                   (Fixture.serve Fixture.resp_not_json)) = Some JSONDecodeError) as H
    by reflexivity.
  split; [exact H |].
  exact (proj2 (proj2 (@fault_tells_what_failed Fixture.runtime ["hello_main.py"] []
                         (Fixture.serve Fixture.resp_not_json))) H).
Defined.

Lemma decoder_sees_only_the_200_response_witness :
  Fixture.serve Fixture.resp_ok (get_request api_url) = inr Fixture.resp_ok /\
  status_code Fixture.resp_ok = 200 /\
  In Fixture.resp_ok
     (decoded (events (@python Fixture.runtime ["hello_main.py"] []
                         (Fixture.serve Fixture.resp_ok)))).
Proof.
  do 2 (split; [reflexivity |]).
  exact (proj2 (proj2 (@decoder_sees_only_the_200_response Fixture.runtime
                         ["hello_main.py"] [] (Fixture.serve Fixture.resp_ok))
                  Fixture.resp_ok)
           (conj eq_refl eq_refl)).
Defined.

Lemma output_depends_on_str_of_decoded_body_witness :
  @json_loads Fixture.runtime Fixture.resp_null = Some Fixture.PyNone /\
  @json_loads Fixture.runtime Fixture.resp_none_str = Some (Fixture.PyStr "None") /\
  @py_str Fixture.runtime Fixture.PyNone
    = @py_str Fixture.runtime (Fixture.PyStr "None") /\
  stdout (@python Fixture.runtime ["hello_main.py"] [] (Fixture.serve Fixture.resp_null))
    = stdout (@python Fixture.runtime ["hello_main.py"] []
                (Fixture.serve Fixture.resp_none_str)).
Proof.
  do 3 (split; [reflexivity |]).
  exact (proj1 (@output_depends_on_str_of_decoded_body Fixture.runtime
           ["hello_main.py"] ["hello_main.py"] [] []
           (Fixture.serve Fixture.resp_null) (Fixture.serve Fixture.resp_none_str)
           Fixture.resp_null Fixture.resp_none_str
           Fixture.PyNone (Fixture.PyStr "None")
           eq_refl eq_refl eq_refl eq_refl eq_refl eq_refl eq_refl)).
Defined.
